(** * ostree-metalink: the metalink request parser of libostree

    A shallow embedding of [src/libostree/ostree-metalink.c]: the
    element-start, element-end and text callbacks that GMarkup drives, the
    checks of [start_target_request_phase], the chunked read loop and the
    synchronous wrapper, followed by the properties established about them. *)

From Stdlib Require Import ZArith List Bool String Ascii Lia.
Import ListNotations.

Local Open Scope string_scope.
Local Open Scope Z_scope.

(** ** The library functions the file calls

    GLib and libsoup are not part of the repository; the functions used by
    the parser are modelled here after their documented behaviour. *)
Module GLib.

(** A C string ends at its first NUL byte. *)
Definition NUL : ascii := Ascii.zero.

Fixpoint c_str (s : string) : string :=
  match s with
  | EmptyString => EmptyString
  | String c r => if Ascii.eqb c NUL then EmptyString else String c (c_str r)
  end.

(** [g_strndup (text, text_len)]: a fresh C string holding the [text_len]
    bytes of [text], cut at a NUL byte if there is one. *)
Definition g_strndup (text : string) : string := c_str text.

(** [strspn (s, accept)]: length of the longest prefix of [s] made of
    characters of [accept]. *)
Fixpoint mem_char (c : ascii) (accept : string) : bool :=
  match accept with
  | EmptyString => false
  | String a r => Ascii.eqb c a || mem_char c r
  end.

Fixpoint strspn (s accept : string) : nat :=
  match s with
  | EmptyString => O
  | String c r =>
      if Ascii.eqb c NUL then O
      else if mem_char c accept then S (strspn r accept) else O
  end.

(** [s[i]]: the byte at index [i] of the C string; the byte just after the
    last character is the terminating NUL. *)
Definition char_at (s : string) (i : nat) : ascii :=
  match String.get i s with
  | Some c => c
  | None => NUL
  end.

Definition G_MAXUINT64 : Z := 18446744073709551615.
Definition G_MAXUINT : Z := 4294967295.

Definition code (c : ascii) : Z := Z.of_N (N_of_ascii c).

Definition g_ascii_isspace (c : ascii) : bool :=
  (code c =? 32) || ((9 <=? code c) && (code c <=? 13)).

Definition g_ascii_isdigit (c : ascii) : bool :=
  (48 <=? code c) && (code c <=? 57).

Definition g_ascii_isalpha (c : ascii) : bool :=
  ((65 <=? code c) && (code c <=? 90)) || ((97 <=? code c) && (code c <=? 122)).

Fixpoint skip_spaces (s : string) : string :=
  match s with
  | String c r => if g_ascii_isspace c then skip_spaces r else s
  | EmptyString => s
  end.

(** The digit loop of [g_parse_long_long] in base 10: [ui64] is the value
    so far, [overflow] is sticky, [seen] says whether a digit was read. *)
Fixpoint parse_digits (s : string) (ui64 : Z) (overflow seen : bool)
  : Z * bool * bool :=
  match s with
  | String c r =>
      if g_ascii_isdigit c then
        let d := code c - 48 in
        let cutoff := G_MAXUINT64 / 10 in
        let cutlim := G_MAXUINT64 mod 10 in
        if (ui64 >? cutoff) || ((ui64 =? cutoff) && (d >? cutlim))
        then parse_digits r ui64 true true
        else parse_digits r (ui64 * 10 + d) overflow true
      else (ui64, overflow, seen)
  | EmptyString => (ui64, overflow, seen)
  end.

(** [g_ascii_strtoull (nptr, NULL, 10)]: leading white space, an optional
    sign, then decimal digits; 0 when there is no digit, [G_MAXUINT64] on
    overflow, and the two's complement of the value after a minus sign. *)
Definition g_ascii_strtoull (nptr : string) : Z :=
  let s := skip_spaces (c_str nptr) in
  let '(negative, s) :=
    match s with
    | String "-" r => (true, r)
    | String "+" r => (false, r)
    | _ => (false, s)
    end in
  let '(ui64, overflow, seen) := parse_digits s 0 false false in
  let result := if negb seen then 0 else if overflow then G_MAXUINT64 else ui64 in
  if negative then (- result) mod (G_MAXUINT64 + 1) else result.

(** Errors are a domain tag and a message, as [g_set_error] builds them. *)
Inductive GError : Type :=
| G_IO_ERROR_FAILED (message : string)
| G_MARKUP_ERROR_UNKNOWN_ATTRIBUTE (element attribute : string)
| G_MARKUP_ERROR_INVALID_CONTENT (element attribute : string)
| G_MARKUP_ERROR_MISSING_ATTRIBUTE (element attribute : string)
| G_IO_ERROR_STREAM (message : string).

Definition attributes : Type := list (string * string).

(** [g_markup_collect_attributes (element, names, values, error,
    G_MARKUP_COLLECT_STRING, wanted, &out, G_MARKUP_COLLECT_INVALID)]: one
    mandatory string attribute.  The first attribute named [wanted] is
    collected, and its absence is the missing-attribute error.  Then the
    attributes are gone through in order and the first one that was not
    collected is an error: invalid content when an attribute of the same
    name comes before it, unknown attribute otherwise. *)
Fixpoint find_attribute (wanted : string) (attrs : attributes)
  : option (nat * string) :=
  match attrs with
  | [] => None
  | (n, v) :: rest =>
      if String.eqb n wanted then Some (O, v)
      else match find_attribute wanted rest with
           | Some (i, v) => Some (S i, v)
           | None => None
           end
  end.

Fixpoint first_uncollected (i collected : nat) (attrs : attributes)
  : option (nat * string) :=
  match attrs with
  | [] => None
  | (n, _) :: rest =>
      if Nat.eqb i collected then first_uncollected (S i) collected rest
      else Some (i, n)
  end.

Definition g_markup_collect_attributes (element : string) (attrs : attributes)
           (wanted : string) : string + GError :=
  match find_attribute wanted attrs with
  | None => inr (G_MARKUP_ERROR_MISSING_ATTRIBUTE element wanted)
  | Some (collected, value) =>
      match first_uncollected O collected attrs with
      | None => inl value
      | Some (i, n) =>
          if existsb (fun a => String.eqb (fst a) n) (firstn i attrs)
          then inr (G_MARKUP_ERROR_INVALID_CONTENT element n)
          else inr (G_MARKUP_ERROR_UNKNOWN_ATTRIBUTE element n)
      end
  end.

(** A parsed URI is kept as the text it was parsed from. *)
Definition SoupURI : Type := string.

Fixpoint scheme_end (s : string) (first : bool) : option ascii :=
  match s with
  | EmptyString => None
  | String c r =>
      if g_ascii_isalpha c
         || (negb first && (g_ascii_isdigit c
                            || Ascii.eqb c "." || Ascii.eqb c "+" || Ascii.eqb c "-"))
      then scheme_end r false
      else if first then None else Some c
  end.

(** Modelled from the spec: [soup_uri_new] belongs to libsoup and is known
    here only as "text parses as a syntactically valid URI"; the model
    accepts the absolute URIs, those that start with a scheme and a colon,
    and returns NULL ([None]) for the rest. *)
Definition soup_uri_new (uri_string : string) : option SoupURI :=
  match scheme_end (c_str uri_string) true with
  | Some ":"%char => Some (c_str uri_string)
  | _ => None
  end.

End GLib.
Import GLib.

(** ** The data model *)

Inductive OstreeMetalinkState : Type :=
| OSTREE_METALINK_STATE_INITIAL
| OSTREE_METALINK_STATE_METALINK
| OSTREE_METALINK_STATE_FILES
| OSTREE_METALINK_STATE_FILE
| OSTREE_METALINK_STATE_SIZE
| OSTREE_METALINK_STATE_VERIFICATION
| OSTREE_METALINK_STATE_HASH
| OSTREE_METALINK_STATE_RESOURCES
| OSTREE_METALINK_STATE_URL
| OSTREE_METALINK_STATE_PASSTHROUGH
| OSTREE_METALINK_STATE_ERROR.

Definition state_eqb (a b : OstreeMetalinkState) : bool :=
  match a, b with
  | OSTREE_METALINK_STATE_INITIAL, OSTREE_METALINK_STATE_INITIAL
  | OSTREE_METALINK_STATE_METALINK, OSTREE_METALINK_STATE_METALINK
  | OSTREE_METALINK_STATE_FILES, OSTREE_METALINK_STATE_FILES
  | OSTREE_METALINK_STATE_FILE, OSTREE_METALINK_STATE_FILE
  | OSTREE_METALINK_STATE_SIZE, OSTREE_METALINK_STATE_SIZE
  | OSTREE_METALINK_STATE_VERIFICATION, OSTREE_METALINK_STATE_VERIFICATION
  | OSTREE_METALINK_STATE_HASH, OSTREE_METALINK_STATE_HASH
  | OSTREE_METALINK_STATE_RESOURCES, OSTREE_METALINK_STATE_RESOURCES
  | OSTREE_METALINK_STATE_URL, OSTREE_METALINK_STATE_URL
  | OSTREE_METALINK_STATE_PASSTHROUGH, OSTREE_METALINK_STATE_PASSTHROUGH
  | OSTREE_METALINK_STATE_ERROR, OSTREE_METALINK_STATE_ERROR => true
  | _, _ => false
  end.

(** GLib's [GChecksumType], in the order of its declaration; a zeroed field
    holds [G_CHECKSUM_MD5]. *)
Inductive GChecksumType : Type :=
| G_CHECKSUM_MD5
| G_CHECKSUM_SHA1
| G_CHECKSUM_SHA256
| G_CHECKSUM_SHA512
| G_CHECKSUM_SHA384.

(** [struct OstreeMetalinkRequest].  [requested_file] is the field of the
    owning [OstreeMetalink]; [verification_type], [verification_value] and
    [file_name] are the fields the callbacks use besides the declared ones.
    A NULL string pointer is [None]. *)
Record OstreeMetalinkRequest : Type := mkRequest {
  requested_file : string;
  passthrough_depth : Z;
  passthrough_previous : OstreeMetalinkState;
  found_a_file_element : bool;
  found_our_file_element : bool;
  verification_known : bool;
  verification_type : GChecksumType;
  size : Z;
  verification_sha256 : option string;
  verification_sha512 : option string;
  verification_value : option string;
  file_name : option string;
  urls : list SoupURI;
  state : OstreeMetalinkState
}.

Definition set_state (v : OstreeMetalinkState) (r : OstreeMetalinkRequest) :=
  mkRequest (requested_file r) (passthrough_depth r) (passthrough_previous r)
    (found_a_file_element r) (found_our_file_element r) (verification_known r)
    (verification_type r) (size r) (verification_sha256 r) (verification_sha512 r)
    (verification_value r) (file_name r) (urls r) v.

Definition set_passthrough_depth (v : Z) (r : OstreeMetalinkRequest) :=
  mkRequest (requested_file r) v (passthrough_previous r)
    (found_a_file_element r) (found_our_file_element r) (verification_known r)
    (verification_type r) (size r) (verification_sha256 r) (verification_sha512 r)
    (verification_value r) (file_name r) (urls r) (state r).

Definition set_found_a_file_element (v : bool) (r : OstreeMetalinkRequest) :=
  mkRequest (requested_file r) (passthrough_depth r) (passthrough_previous r)
    v (found_our_file_element r) (verification_known r)
    (verification_type r) (size r) (verification_sha256 r) (verification_sha512 r)
    (verification_value r) (file_name r) (urls r) (state r).

Definition set_found_our_file_element (v : bool) (r : OstreeMetalinkRequest) :=
  mkRequest (requested_file r) (passthrough_depth r) (passthrough_previous r)
    (found_a_file_element r) v (verification_known r)
    (verification_type r) (size r) (verification_sha256 r) (verification_sha512 r)
    (verification_value r) (file_name r) (urls r) (state r).

Definition set_verification_known (v : bool) (r : OstreeMetalinkRequest) :=
  mkRequest (requested_file r) (passthrough_depth r) (passthrough_previous r)
    (found_a_file_element r) (found_our_file_element r) v
    (verification_type r) (size r) (verification_sha256 r) (verification_sha512 r)
    (verification_value r) (file_name r) (urls r) (state r).

Definition set_verification_type (v : GChecksumType) (r : OstreeMetalinkRequest) :=
  mkRequest (requested_file r) (passthrough_depth r) (passthrough_previous r)
    (found_a_file_element r) (found_our_file_element r) (verification_known r)
    v (size r) (verification_sha256 r) (verification_sha512 r)
    (verification_value r) (file_name r) (urls r) (state r).

Definition set_size (v : Z) (r : OstreeMetalinkRequest) :=
  mkRequest (requested_file r) (passthrough_depth r) (passthrough_previous r)
    (found_a_file_element r) (found_our_file_element r) (verification_known r)
    (verification_type r) v (verification_sha256 r) (verification_sha512 r)
    (verification_value r) (file_name r) (urls r) (state r).

Definition set_verification_sha256 (v : option string) (r : OstreeMetalinkRequest) :=
  mkRequest (requested_file r) (passthrough_depth r) (passthrough_previous r)
    (found_a_file_element r) (found_our_file_element r) (verification_known r)
    (verification_type r) (size r) v (verification_sha512 r)
    (verification_value r) (file_name r) (urls r) (state r).

Definition set_verification_sha512 (v : option string) (r : OstreeMetalinkRequest) :=
  mkRequest (requested_file r) (passthrough_depth r) (passthrough_previous r)
    (found_a_file_element r) (found_our_file_element r) (verification_known r)
    (verification_type r) (size r) (verification_sha256 r) v
    (verification_value r) (file_name r) (urls r) (state r).

Definition set_verification_value (v : option string) (r : OstreeMetalinkRequest) :=
  mkRequest (requested_file r) (passthrough_depth r) (passthrough_previous r)
    (found_a_file_element r) (found_our_file_element r) (verification_known r)
    (verification_type r) (size r) (verification_sha256 r) (verification_sha512 r)
    v (file_name r) (urls r) (state r).

Definition set_file_name (v : option string) (r : OstreeMetalinkRequest) :=
  mkRequest (requested_file r) (passthrough_depth r) (passthrough_previous r)
    (found_a_file_element r) (found_our_file_element r) (verification_known r)
    (verification_type r) (size r) (verification_sha256 r) (verification_sha512 r)
    (verification_value r) v (urls r) (state r).

Definition set_urls (v : list SoupURI) (r : OstreeMetalinkRequest) :=
  mkRequest (requested_file r) (passthrough_depth r) (passthrough_previous r)
    (found_a_file_element r) (found_our_file_element r) (verification_known r)
    (verification_type r) (size r) (verification_sha256 r) (verification_sha512 r)
    (verification_value r) (file_name r) v (state r).

(** [g_new0 (OstreeMetalinkRequest, 1)] with the fields
    [_ostree_metalink_request_async] fills in: every field is zero and the
    URL array is empty. *)
Definition new_request (requested : string) : OstreeMetalinkRequest :=
  mkRequest requested 0 OSTREE_METALINK_STATE_INITIAL false false false
    G_CHECKSUM_MD5 0 None None None None [] OSTREE_METALINK_STATE_INITIAL.

(** ** Outcomes of a callback

    A callback returns normally, sets [*error], or trips a [g_assert]. *)
Inductive assertion : Type :=
| ASSERT_STATE_CHANGES      (* g_assert (self->state != new_state) *)
| ASSERT_DEPTH_ZERO         (* g_assert (self->passthrough_depth == 0) *)
| ASSERT_NOT_REACHED.       (* g_assert_not_reached () *)

Inductive outcome : Type :=
| Continue (self : OstreeMetalinkRequest)
| Failed (self : OstreeMetalinkRequest) (error : GError)
| Aborted (a : assertion).

Definition and_then (o : outcome) (k : OstreeMetalinkRequest -> outcome) : outcome :=
  match o with
  | Continue self => k self
  | Failed self e => Failed self e
  | Aborted a => Aborted a
  end.

Notation "self <- o ;; k" := (and_then o (fun self => k))
  (at level 61, o at next level, right associativity).

(** ** The callbacks *)

Definition state_transition (self : OstreeMetalinkRequest)
           (new_state : OstreeMetalinkState) : outcome :=
  if state_eqb (state self) new_state then Aborted ASSERT_STATE_CHANGES
  else Continue (set_state new_state self).

Definition assert_depth_zero (self : OstreeMetalinkRequest) : outcome :=
  if passthrough_depth self =? 0 then Continue self else Aborted ASSERT_DEPTH_ZERO.

Definition unknown_element (self : OstreeMetalinkRequest) (element_name : string)
  : outcome :=
  self <- state_transition self OSTREE_METALINK_STATE_PASSTHROUGH ;;
  assert_depth_zero self.

Definition NO_SIZE : GError :=
  G_IO_ERROR_FAILED "No <size> element found or it is zero".
Definition NO_KNOWN_HASH : GError :=
  G_IO_ERROR_FAILED "No <verification> element with known <hash type=> found".

Definition metalink_parser_start (self : OstreeMetalinkRequest)
           (element_name : string) (attrs : attributes) : outcome :=
  match state self with
  | OSTREE_METALINK_STATE_INITIAL =>
      if (element_name =? "metalink")%string
      then state_transition self OSTREE_METALINK_STATE_METALINK
      else unknown_element self element_name
  | OSTREE_METALINK_STATE_METALINK =>
      if (element_name =? "files")%string
      then state_transition self OSTREE_METALINK_STATE_FILES
      else unknown_element self element_name
  | OSTREE_METALINK_STATE_FILES =>
      if (0 <? List.length (urls self))%nat then
        state_transition self OSTREE_METALINK_STATE_PASSTHROUGH
      else if (element_name =? "file")%string then
        let self := set_file_name None self in
        match g_markup_collect_attributes element_name attrs "name" with
        | inr e => Failed self e
        | inl name =>
            let self := set_found_a_file_element true self in
            if negb (name =? requested_file self)%string then
              self <- state_transition self OSTREE_METALINK_STATE_PASSTHROUGH ;;
              assert_depth_zero self
            else
              let self := set_found_our_file_element true self in
              state_transition self OSTREE_METALINK_STATE_FILE
        end
      else unknown_element self element_name
  | OSTREE_METALINK_STATE_FILE =>
      if (element_name =? "size")%string
      then state_transition self OSTREE_METALINK_STATE_SIZE
      else if (element_name =? "verification")%string
      then state_transition self OSTREE_METALINK_STATE_VERIFICATION
      else if (element_name =? "resources")%string
      then state_transition self OSTREE_METALINK_STATE_RESOURCES
      else unknown_element self element_name
  | OSTREE_METALINK_STATE_SIZE => unknown_element self element_name
  | OSTREE_METALINK_STATE_VERIFICATION =>
      if (element_name =? "hash")%string then
        self <- state_transition self OSTREE_METALINK_STATE_HASH ;;
        match g_markup_collect_attributes element_name attrs "name" with
        | inr e => Failed self e
        | inl verification_type_str =>
            let self := set_verification_known true self in
            if (verification_type_str =? "sha256")%string
            then Continue (set_verification_type G_CHECKSUM_SHA256 self)
            else if (verification_type_str =? "sha512")%string
            then Continue (set_verification_type G_CHECKSUM_SHA512 self)
            else Continue (set_verification_known false self)
        end
      else unknown_element self element_name
  | OSTREE_METALINK_STATE_HASH => unknown_element self element_name
  | OSTREE_METALINK_STATE_RESOURCES =>
      if size self =? 0 then Failed self NO_SIZE
      else if negb (verification_known self) then Failed self NO_KNOWN_HASH
      else if (element_name =? "url")%string then
        match g_markup_collect_attributes element_name attrs "protocol" with
        | inr e => Failed self e
        | inl protocol =>
            if negb ((protocol =? "http")%string || (protocol =? "https")%string)
            then state_transition self OSTREE_METALINK_STATE_PASSTHROUGH
            else state_transition self OSTREE_METALINK_STATE_URL
        end
      else unknown_element self element_name
  | OSTREE_METALINK_STATE_URL => unknown_element self element_name
  | OSTREE_METALINK_STATE_PASSTHROUGH =>
      Continue (set_passthrough_depth
                  ((passthrough_depth self + 1) mod (G_MAXUINT + 1)) self)
  | OSTREE_METALINK_STATE_ERROR => Continue self
  end.

(** The body of [metalink_parser_end] only fetches [self]. *)
Definition metalink_parser_end (self : OstreeMetalinkRequest)
           (element_name : string) : outcome :=
  Continue self.

Definition metalink_parser_text (self : OstreeMetalinkRequest) (text : string)
  : outcome :=
  match state self with
  | OSTREE_METALINK_STATE_INITIAL
  | OSTREE_METALINK_STATE_METALINK
  | OSTREE_METALINK_STATE_FILES
  | OSTREE_METALINK_STATE_FILE => Continue self
  | OSTREE_METALINK_STATE_SIZE =>
      let duped := g_strndup text in
      Continue (set_size (g_ascii_strtoull duped) self)
  | OSTREE_METALINK_STATE_VERIFICATION =>
      if verification_known self then
        match verification_type self with
        | G_CHECKSUM_SHA256 =>
            Continue (set_verification_sha256 (Some (g_strndup text)) self)
        | G_CHECKSUM_SHA512 =>
            Continue (set_verification_sha512 (Some (g_strndup text)) self)
        | _ => Aborted ASSERT_NOT_REACHED
        end
      else Continue self
  | OSTREE_METALINK_STATE_HASH =>
      let self := set_verification_value None self in
      Continue (set_verification_value (Some (g_strndup text)) self)
  | OSTREE_METALINK_STATE_RESOURCES => Continue self
  | OSTREE_METALINK_STATE_URL =>
      let uri_text := g_strndup text in
      match soup_uri_new uri_text with
      | Some uri => Continue (set_urls (urls self ++ [uri])%list self)
      | None => Continue self
      end
  | OSTREE_METALINK_STATE_PASSTHROUGH => Continue self
  | OSTREE_METALINK_STATE_ERROR => Continue self
  end.

(** ** Events and the parse of a chunk

    GMarkup segments the bytes into calls of the three callbacks; a chunk is
    taken here as the calls it gives rise to.  Once a callback has set the
    error the context makes no further call. *)
Inductive markup_event : Type :=
| StartElement (element_name : string) (attrs : attributes)
| EndElement (element_name : string)
| Text (text : string).

Definition dispatch (self : OstreeMetalinkRequest) (ev : markup_event) : outcome :=
  match ev with
  | StartElement n a => metalink_parser_start self n a
  | EndElement n => metalink_parser_end self n
  | Text t => metalink_parser_text self t
  end.

Fixpoint g_markup_parse_context_parse (self : OstreeMetalinkRequest)
         (events : list markup_event) : outcome :=
  match events with
  | [] => Continue self
  | ev :: rest => self <- dispatch self ev ;; g_markup_parse_context_parse self rest
  end.

(** ** The checks made at the end of the stream *)

Definition valid_hex_checksum (s : string) (expected_len : nat) : bool :=
  let len := strspn s "01234567890abcdef" in
  (len =? expected_len)%nat && Ascii.eqb (char_at s len) NUL.

Definition is_set (p : option string) : bool :=
  match p with Some _ => true | None => false end.

(** [p && !valid_hex_checksum (p, n)] for a string pointer [p]. *)
Definition set_and_invalid (p : option string) (n : nat) : bool :=
  match p with Some s => negb (valid_hex_checksum s n) | None => false end.

Definition NO_FILE_ELEMENT : GError :=
  G_IO_ERROR_FAILED "No <file> element found".
Definition NO_REQUESTED_FILE (requested : string) : GError :=
  G_IO_ERROR_FAILED ("No <file name='" ++ requested ++ "'> found").
Definition NO_DIGEST : GError :=
  G_IO_ERROR_FAILED "No <verification> hash for sha256 or sha512 found".
Definition INVALID_SHA256 : GError :=
  G_IO_ERROR_FAILED "Invalid hash digest for sha256".
Definition INVALID_SHA512 : GError :=
  G_IO_ERROR_FAILED "Invalid hash digest for sha512".
Definition NO_URLS : GError :=
  G_IO_ERROR_FAILED "No <url method='http'> elements found".

(** [start_target_request_phase]: [None] is the return value TRUE, [Some e]
    is FALSE with [*error] set to [e]. *)
Definition start_target_request_phase (self : OstreeMetalinkRequest)
  : option GError :=
  if negb (found_a_file_element self) then Some NO_FILE_ELEMENT
  else if negb (found_our_file_element self)
  then Some (NO_REQUESTED_FILE (requested_file self))
  else if negb (is_set (verification_sha256 self) || is_set (verification_sha512 self))
  then Some NO_DIGEST
  else if set_and_invalid (verification_sha256 self) 64 then Some INVALID_SHA256
  else if set_and_invalid (verification_sha512 self) 128 then Some INVALID_SHA512
  else if (List.length (urls self) =? 0)%nat then Some NO_URLS
  else None.

(** ** The read loop *)

(** Modelled from the spec: the body of [ostree_metalink_request_finish] is
    empty in the source, so the value handed to the caller on success is
    taken from the data model: the candidate URLs in document order, the
    expected size and the digests that are set. *)
Record ResolvedTarget : Type := mkTarget {
  target_urls : list SoupURI;
  target_size : Z;
  target_sha256 : option string;
  target_sha512 : option string
}.

Definition resolved_target (self : OstreeMetalinkRequest) : ResolvedTarget :=
  mkTarget (urls self) (size self) (verification_sha256 self)
           (verification_sha512 self).

(** What [g_input_stream_read_bytes_finish] hands to the callback: a
    failure, a chunk of at least one byte (given as the callbacks GMarkup
    makes for it), or zero bytes. *)
Inductive read_result : Type :=
| READ_FAILED (error : GError)
| READ_BYTES (events : list markup_event)
| READ_END.

Inductive task_result : Type :=
| TASK_PENDING (self : OstreeMetalinkRequest)
| TASK_ERROR (error : GError)
| TASK_ABORTED (a : assertion)
| TASK_DONE (target : ResolvedTarget).

(** [on_metalink_bytes_read], once per completed read; each chunk schedules
    the next read, and zero bytes runs [start_target_request_phase].  The
    second component counts the runs of [start_target_request_phase].

    Modelled from the spec: the line of the source that parses the chunk is
    cut short, the next read is issued right after it, and the task is
    completed with an error only.  What the loop does with a chunk whose
    parse fails (it ends with that failure) and with final checks that pass
    (it completes the task with the target) is taken from the specification
    of the streaming orchestrator. *)
Fixpoint on_metalink_bytes_read (self : OstreeMetalinkRequest)
         (reads : list read_result) : task_result * nat :=
  match reads with
  | [] => (TASK_PENDING self, O)
  | READ_FAILED e :: _ => (TASK_ERROR e, O)
  | READ_END :: _ =>
      (match start_target_request_phase self with
       | Some e => TASK_ERROR e
       | None => TASK_DONE (resolved_target self)
       end, 1%nat)
  | READ_BYTES events :: rest =>
      match g_markup_parse_context_parse self events with
      | Continue self => on_metalink_bytes_read self rest
      | Failed _ e => (TASK_ERROR e, O)
      | Aborted a => (TASK_ABORTED a, O)
      end
  end.

(** [_ostree_metalink_request_async] followed by [on_retrieved_metalink]:
    a zeroed request, then the read loop on the stream the fetcher opened,
    or the fetcher's failure. *)
Definition _ostree_metalink_request_async (requested : string)
           (stream : list read_result + GError) : task_result * nat :=
  match stream with
  | inr e => (TASK_ERROR e, O)
  | inl reads => on_metalink_bytes_read (new_request requested) reads
  end.

(** The resolution of a whole document delivered in the given chunks and
    followed by the end of the stream. *)
Definition resolve (requested : string) (chunks : list (list markup_event))
  : task_result :=
  fst (_ostree_metalink_request_async requested
         (inl (map READ_BYTES chunks ++ [READ_END])%list)).

(** ** The read loop over bytes

    [self->parser] is a GMarkup context: it takes the bytes of each chunk
    one after the other, keeps its own state from one call of
    [g_markup_parse_context_parse] to the next, and makes the callbacks as
    the bytes complete a start tag, an end tag or a run of text.  GMarkup is
    not part of the repository; it enters here as the state it keeps and the
    step it makes on one byte. *)
Section Scanner.

Variable parser_state : Type.
Variable scan_byte : parser_state -> ascii -> parser_state * list markup_event.

Fixpoint scan (ps : parser_state) (bytes : string)
  : parser_state * list markup_event :=
  match bytes with
  | EmptyString => (ps, [])
  | String b rest =>
      let '(ps, events) := scan_byte ps b in
      let '(ps, events') := scan ps rest in
      (ps, (events ++ events')%list)
  end.

(** [on_metalink_bytes_read] on the bytes themselves: a read gives a
    failure or a [GBytes], and a [GBytes] of size zero is the end of the
    stream. *)
Fixpoint on_metalink_bytes_read_raw (ps : parser_state)
         (self : OstreeMetalinkRequest) (reads : list (string + GError))
  : task_result * nat :=
  match reads with
  | [] => (TASK_PENDING self, O)
  | inr e :: _ => (TASK_ERROR e, O)
  | inl bytes :: rest =>
      if (String.length bytes =? 0)%nat then
        (match start_target_request_phase self with
         | Some e => TASK_ERROR e
         | None => TASK_DONE (resolved_target self)
         end, 1%nat)
      else
        let '(ps, events) := scan ps bytes in
        match g_markup_parse_context_parse self events with
        | Continue self => on_metalink_bytes_read_raw ps self rest
        | Failed _ e => (TASK_ERROR e, O)
        | Aborted a => (TASK_ABORTED a, O)
        end
  end.

(** The reads as the callbacks GMarkup makes for them. *)
Fixpoint segment (ps : parser_state) (reads : list (string + GError))
  : list read_result :=
  match reads with
  | [] => []
  | inr e :: rest => READ_FAILED e :: segment ps rest
  | inl bytes :: rest =>
      if (String.length bytes =? 0)%nat then READ_END :: segment ps rest
      else
        let '(ps', events) := scan ps bytes in
        READ_BYTES events :: segment ps' rest
  end.

End Scanner.

Arguments scan {parser_state} scan_byte ps bytes.
Arguments on_metalink_bytes_read_raw {parser_state} scan_byte ps self reads.
Arguments segment {parser_state} scan_byte ps reads.




(** ** The synchronous wrapper *)

Record MetalinkSyncCallState : Type := mkSync {
  running : bool;
  success : bool
}.

(** A main context, as far as the request is concerned: [completion] is
    [Some (n, r)] when the completion of the request is attached to the
    context, due after [n] further iterations of it, [r] being what
    [ostree_metalink_request_finish] will return then; it is [None] when
    nothing of the request is attached to the context. *)
Record main_context : Type := mkContext {
  completion : option (nat * bool);
  dispatched : bool
}.

Definition g_main_context_new : main_context := mkContext None false.

Definition on_async_result (finish_value : bool) (st : MetalinkSyncCallState)
  : MetalinkSyncCallState :=
  let st := mkSync (running st) finish_value in
  mkSync false (success st).

(** One iteration dispatches what is attached to the context and due. *)
Definition g_main_context_iteration (ctx : main_context) (st : MetalinkSyncCallState)
  : main_context * MetalinkSyncCallState :=
  match completion ctx with
  | None => (ctx, st)
  | Some (O, r) => (mkContext None true, on_async_result r st)
  | Some (S n, r) => (mkContext (Some (n, r)) false, st)
  end.

(** [while (state.running) g_main_context_iteration (sync_context, TRUE);]
    with a bound on the number of iterations; [None] when the bound is
    reached with the flag still set. *)
Fixpoint sync_loop (fuel : nat) (ctx : main_context) (st : MetalinkSyncCallState)
  : option (main_context * MetalinkSyncCallState) :=
  if running st then
    match fuel with
    | O => None
    | S fuel =>
        let '(ctx, st) := g_main_context_iteration ctx st in
        sync_loop fuel ctx st
    end
  else Some (ctx, st).

(** [_ostree_metalink_request_sync]: [sync_context] is a new context and
    is not made the thread default, the state is [{ 0, }], the request is
    started, so that its completion, due after [latency] iterations and
    carrying [finish_value], is attached to the thread-default context; then
    the loop iterates [sync_context], and [state.success] is returned.  The
    result is the return value together with whether the completion callback
    has run by then. *)
Definition _ostree_metalink_request_sync (fuel latency : nat) (finish_value : bool)
  : option (bool * bool) :=
  let sync_context := g_main_context_new in
  let st := mkSync false false in
  let thread_default := mkContext (Some (latency, finish_value)) false in
  match sync_loop fuel sync_context st with
  | Some (_, st) => Some (success st, dispatched thread_default)
  | None => None
  end.

(** ** Predicates, specifications and sample data of the statements *)

Definition is_lower_hex (c : ascii) : bool :=
  ((48 <=? code c) && (code c <=? 57)) || ((97 <=? code c) && (code c <=? 102)).

(** The strings matching [^[0-9a-f]{n}$], in the words of the specification:
    only lowercase hexadecimal characters, and exactly [n] of them. *)
Definition lower_hex_of_length (n : nat) (value : string) : bool :=
  forallb is_lower_hex (list_ascii_of_string value)
  && (String.length value =? n)%nat.

Definition is_sha (t : GChecksumType) : bool :=
  match t with
  | G_CHECKSUM_SHA256 | G_CHECKSUM_SHA512 => true
  | _ => false
  end.

(** When the flag is set, the type is one of the two the text callback
    switches on. *)
Definition known_type_ok (self : OstreeMetalinkRequest) : bool :=
  implb (verification_known self) (is_sha (verification_type self)).

Definition holds_after (P : OstreeMetalinkRequest -> bool) (o : outcome) : Prop :=
  match o with
  | Continue self | Failed self _ => P self = true
  | Aborted a => a <> ASSERT_NOT_REACHED
  end.

(** The requests a fresh request can turn into: no digest, no URL, and a
    zero size and a clear flag wherever they are looked at. *)
Definition unresolved (self : OstreeMetalinkRequest) : Prop :=
  verification_sha256 self = None /\
  verification_sha512 self = None /\
  urls self = [] /\
  match state self with
  | OSTREE_METALINK_STATE_SIZE
  | OSTREE_METALINK_STATE_HASH => passthrough_depth self = 0
  | OSTREE_METALINK_STATE_PASSTHROUGH => True
  | OSTREE_METALINK_STATE_URL
  | OSTREE_METALINK_STATE_ERROR => False
  | _ => passthrough_depth self = 0 /\ size self = 0
         /\ verification_known self = false
  end.

Definition stays_unresolved (o : outcome) : Prop :=
  match o with
  | Continue self => unresolved self
  | Failed _ _ => True
  | Aborted _ => False
  end.

Definition not_done (r : task_result) : Prop :=
  match r with
  | TASK_DONE _ => False
  | _ => True
  end.

Definition sample_sha256 : string :=
  "0123456789abcdef0123456789abcdef0123456789abcdef0123456789abcdef".

(** [<metalink><files><file name="f"><size>10</size><verification><hash
    name="sha256">...</hash></verification><resources><url
    protocol="http">http://mirror.example/f</url></resources></file></files>
    </metalink>] *)
Definition sample_manifest : list markup_event :=
  [ StartElement "metalink" [];
    StartElement "files" [];
    StartElement "file" [("name", "f")];
    StartElement "size" []; Text "10"; EndElement "size";
    StartElement "verification" [];
    StartElement "hash" [("name", "sha256")]; Text sample_sha256; EndElement "hash";
    EndElement "verification";
    StartElement "resources" [];
    StartElement "url" [("protocol", "http")]; Text "http://mirror.example/f";
    EndElement "url";
    EndElement "resources";
    EndElement "file"; EndElement "files"; EndElement "metalink" ].

(** The same file entry with a [<description><detail>x</detail>
    </description>] block in front of [<size>]. *)
Definition manifest_with_unknown_block : list markup_event :=
  [ StartElement "metalink" [];
    StartElement "files" [];
    StartElement "file" [("name", "f")];
    StartElement "description" []; StartElement "detail" []; Text "x";
    EndElement "detail"; EndElement "description";
    StartElement "size" []; Text "10"; EndElement "size";
    StartElement "verification" [];
    StartElement "hash" [("name", "sha256")]; Text sample_sha256; EndElement "hash";
    EndElement "verification";
    StartElement "resources" [];
    StartElement "url" [("protocol", "http")]; Text "http://mirror.example/f";
    EndElement "url";
    EndElement "resources";
    EndElement "file"; EndElement "files"; EndElement "metalink" ].

(** A file entry whose verification block is given; no size, so that the
    verification block is the first child of [file]. *)
Definition manifest_with_hashes (hashes : list markup_event) : list markup_event :=
  ([ StartElement "metalink" [];
     StartElement "files" [];
     StartElement "file" [("name", "f")];
     StartElement "verification" [] ]
   ++ hashes
   ++ [ EndElement "verification";
        EndElement "file"; EndElement "files"; EndElement "metalink" ])%list.

Definition hash_element (algorithm digest : string) : list markup_event :=
  [ StartElement "hash" [("name", algorithm)]; Text digest; EndElement "hash" ].

(** A request that stands in VERIFICATION with a recognized sha256 hash
    behind it. *)
Definition request_after_sha256 : OstreeMetalinkRequest :=
  mkRequest "f" 0 OSTREE_METALINK_STATE_INITIAL true true true
    G_CHECKSUM_SHA256 10 None None None None [] OSTREE_METALINK_STATE_VERIFICATION.




(** A start of a [hash] element whose [name] is one of the two recognized
    algorithms. *)
Definition recognized_hash (ev : markup_event) : bool :=
  match ev with
  | StartElement n a =>
      (n =? "hash")%string
      && match g_markup_collect_attributes n a "name" with
         | inl v => (v =? "sha256")%string || (v =? "sha512")%string
         | inr _ => false
         end
  | _ => false
  end.

(** A request inside [file] whose size is known and whose hashes were all
    of unsupported algorithms. *)
Definition request_in_file : OstreeMetalinkRequest :=
  mkRequest "f" 0 OSTREE_METALINK_STATE_INITIAL true true false
    G_CHECKSUM_MD5 10 None None None None [] OSTREE_METALINK_STATE_FILE.

Definition events_to_resources : list markup_event :=
  [ StartElement "metalink" [];
    StartElement "files" [];
    StartElement "file" [("name", "f")];
    StartElement "resources" [] ].

Definition request_in_resources : OstreeMetalinkRequest :=
  mkRequest "f" 0 OSTREE_METALINK_STATE_INITIAL true true false
    G_CHECKSUM_MD5 0 None None None None [] OSTREE_METALINK_STATE_RESOURCES.

(** A request standing in SIZE for which everything but the size has been
    recorded. *)
Definition request_in_size : OstreeMetalinkRequest :=
  mkRequest "f" 0 OSTREE_METALINK_STATE_INITIAL true true true
    G_CHECKSUM_SHA256 0 (Some sample_sha256) None None None
    ["http://mirror.example/f"] OSTREE_METALINK_STATE_SIZE.

(** ** Further predicates of the statements *)

(** How far a state is from INITIAL along the element grammar. *)
Definition state_rank (s : OstreeMetalinkState) : nat :=
  match s with
  | OSTREE_METALINK_STATE_INITIAL => 0
  | OSTREE_METALINK_STATE_METALINK => 1
  | OSTREE_METALINK_STATE_FILES => 2
  | OSTREE_METALINK_STATE_FILE => 3
  | OSTREE_METALINK_STATE_SIZE
  | OSTREE_METALINK_STATE_VERIFICATION
  | OSTREE_METALINK_STATE_RESOURCES => 4
  | OSTREE_METALINK_STATE_HASH
  | OSTREE_METALINK_STATE_URL => 5
  | OSTREE_METALINK_STATE_PASSTHROUGH => 6
  | OSTREE_METALINK_STATE_ERROR => 7
  end.

Definition is_start (ev : markup_event) : bool :=
  match ev with StartElement _ _ => true | _ => false end.

Definition is_text (ev : markup_event) : bool :=
  match ev with Text _ => true | _ => false end.

Definition count_starts (events : list markup_event) : Z :=
  Z.of_nat (List.length (filter is_start events)).

(** What the assertions of the callbacks rely on: the passthrough depth is
    zero outside PASSTHROUGH, and a set flag comes with a sha type. *)
Definition assertions_hold (self : OstreeMetalinkRequest) : bool :=
  (state_eqb (state self) OSTREE_METALINK_STATE_PASSTHROUGH
   || (passthrough_depth self =? 0))
  && known_type_ok self.

Definition never_aborted (o : outcome) : Prop :=
  match o with
  | Continue self | Failed self _ => assertions_hold self = true
  | Aborted _ => False
  end.

(** [P] holds of the request the callbacks leave, whether they returned
    normally or with an error. *)
Definition after_events (P : OstreeMetalinkRequest -> Prop) (o : outcome) : Prop :=
  match o with
  | Continue self | Failed self _ => P self
  | Aborted _ => True
  end.

Definition count_texts (events : list markup_event) : nat :=
  List.length (filter is_text events).

(** The error of the final checks on a request without digest. *)
Definition error_without_digest (self : OstreeMetalinkRequest) : GError :=
  if negb (found_a_file_element self) then NO_FILE_ELEMENT
  else if negb (found_our_file_element self)
  then NO_REQUESTED_FILE (requested_file self)
  else NO_DIGEST.


(** A request in PASSTHROUGH two elements deep. *)
Definition request_in_passthrough : OstreeMetalinkRequest :=
  mkRequest "f" 2 OSTREE_METALINK_STATE_INITIAL true false false
    G_CHECKSUM_MD5 0 None None None None [] OSTREE_METALINK_STATE_PASSTHROUGH.


(** Relations between a request and a later one. *)
Definition flags_kept (self self' : OstreeMetalinkRequest) : Prop :=
  implb (found_a_file_element self) (found_a_file_element self')
  && implb (found_our_file_element self) (found_our_file_element self') = true.

Definition moves_on (self self' : OstreeMetalinkRequest) : Prop :=
  state self' = state self
  \/ (state_rank (state self) < state_rank (state self'))%nat.

Definition unwritten (self self' : OstreeMetalinkRequest) : Prop :=
  requested_file self' = requested_file self
  /\ passthrough_previous self' = passthrough_previous self
  /\ state_eqb (state self') OSTREE_METALINK_STATE_ERROR
     = state_eqb (state self) OSTREE_METALINK_STATE_ERROR.

(** ** Documents and requests of the revised statements *)


(** The request those events leave: in HASH, flag set, no digest stored. *)
Definition request_after_hash_text : OstreeMetalinkRequest :=
  mkRequest "f" 0 OSTREE_METALINK_STATE_INITIAL true true true
    G_CHECKSUM_SHA256 0 None None (Some sample_sha256) None []
    OSTREE_METALINK_STATE_HASH.

(** The sample manifest with [<size>0</size>]. *)
Definition manifest_zero_size : list markup_event :=
  [ StartElement "metalink" [];
    StartElement "files" [];
    StartElement "file" [("name", "f")];
    StartElement "size" []; Text "0"; EndElement "size";
    StartElement "verification" [];
    StartElement "hash" [("name", "sha256")]; Text sample_sha256; EndElement "hash";
    EndElement "verification";
    StartElement "resources" [];
    StartElement "url" [("protocol", "http")]; Text "http://mirror.example/f";
    EndElement "url";
    EndElement "resources";
    EndElement "file"; EndElement "files"; EndElement "metalink" ].

(** The sample manifest without its [size] element. *)
Definition manifest_without_size : list markup_event :=
  [ StartElement "metalink" [];
    StartElement "files" [];
    StartElement "file" [("name", "f")];
    StartElement "verification" [];
    StartElement "hash" [("name", "sha256")]; Text sample_sha256; EndElement "hash";
    EndElement "verification";
    StartElement "resources" [];
    StartElement "url" [("protocol", "http")]; Text "http://mirror.example/f";
    EndElement "url";
    EndElement "resources";
    EndElement "file"; EndElement "files"; EndElement "metalink" ].

(** An error raised by [g_set_error (error, G_IO_ERROR, ...)]. *)
Definition is_io_error (e : GError) : bool :=
  match e with
  | G_IO_ERROR_FAILED _ => true
  | _ => false
  end.

(** The callbacks raised no error but possibly the zero-size one or one of
    GMarkup's. *)
Definition no_known_hash_error (o : outcome) : Prop :=
  match o with
  | Failed _ e => e <> NO_KNOWN_HASH
  | _ => True
  end.

(** ** Proof support *)

Ltac break_if :=
  match goal with
  | |- context [if ?c then _ else _] => destruct c eqn:?
  end.

Ltac break_match :=
  match goal with
  | |- context [match ?c with _ => _ end] => destruct c eqn:?
  end.

Ltac unfold_callbacks :=
  unfold dispatch, metalink_parser_start, metalink_parser_end,
    metalink_parser_text, unknown_element, assert_depth_zero,
    state_transition, and_then.

Lemma and_then_continue (o : outcome) (k : OstreeMetalinkRequest -> outcome)
      (self' : OstreeMetalinkRequest) :
  and_then o k = Continue self' ->
  exists mid, o = Continue mid /\ k mid = Continue self'.
Proof.
  destruct o as [mid|mid e|a]; simpl; intros H; try discriminate.
  exists mid; split; [reflexivity|exact H].
Qed.

Lemma parse_app (self : OstreeMetalinkRequest) (xs ys : list markup_event) :
  g_markup_parse_context_parse self (xs ++ ys)%list =
  and_then (g_markup_parse_context_parse self xs)
           (fun mid => g_markup_parse_context_parse mid ys).
Proof.
  revert self; induction xs as [|x xs IH]; intros self; simpl.
  - reflexivity.
  - destruct (dispatch self x) as [mid|mid e|a]; simpl; auto.
Qed.

(** *** The digest validator *)

Lemma accept_set_is_lower_hex (c : ascii) :
  mem_char c "01234567890abcdef" = is_lower_hex c.
Proof.
  destruct c as [[] [] [] [] [] [] [] []]; reflexivity.
Qed.

(** The span reaches the terminator exactly when every character of the C
    string is accepted. *)
Lemma span_to_terminator (s accept : string) :
  Ascii.eqb (char_at s (strspn s accept)) NUL
  = forallb (fun c => mem_char c accept) (list_ascii_of_string (c_str s)).
Proof.
  unfold char_at.
  induction s as [|c r IH]; simpl; [reflexivity|].
  destruct (Ascii.eqb c NUL) eqn:Hc; simpl.
  - exact Hc.
  - destruct (mem_char c accept) eqn:Hh; simpl.
    + exact IH.
    + exact Hc.
Qed.

Lemma span_of_accepted (s accept : string) :
  forallb (fun c => mem_char c accept) (list_ascii_of_string (c_str s)) = true ->
  strspn s accept = String.length (c_str s).
Proof.
  induction s as [|c r IH]; simpl; [reflexivity|].
  destruct (Ascii.eqb c NUL) eqn:Hc; simpl; [reflexivity|].
  destruct (mem_char c accept); simpl; [|discriminate].
  intros H; rewrite (IH H); reflexivity.
Qed.

Lemma forallb_accept_set (l : list ascii) :
  forallb (fun c => mem_char c "01234567890abcdef") l = forallb is_lower_hex l.
Proof.
  induction l as [|c l IH]; [reflexivity|].
  cbn [forallb]. rewrite accept_set_is_lower_hex, IH. reflexivity.
Qed.

(** C7.  [valid_hex_checksum (s, n)] is true exactly when the C string [s]
    consists of lowercase hexadecimal characters only and has exactly [n] of
    them, that is when it matches [^[0-9a-f]{n}$]; the function computes a
    boolean from its arguments and touches nothing else. *)
Theorem valid_hex_checksum_spec (s : string) (expected_len : nat) :
  valid_hex_checksum s expected_len = lower_hex_of_length expected_len (c_str s).
Proof.
  unfold valid_hex_checksum, lower_hex_of_length.
  rewrite span_to_terminator, <- forallb_accept_set.
  destruct (forallb _ (list_ascii_of_string (c_str s))) eqn:Hall.
  - rewrite (span_of_accepted s _ Hall), andb_true_r; reflexivity.
  - rewrite andb_false_r; reflexivity.
Qed.

(** *** The checksum type behind [verification_known] *)

Lemma start_keeps_known_type (self : OstreeMetalinkRequest)
      (element_name : string) (attrs : attributes) :
  known_type_ok self = true ->
  holds_after known_type_ok (metalink_parser_start self element_name attrs).
Proof.
  destruct self as [rf pd pp fa fo vk vt sz s2 s5 vv fn us st].
  unfold known_type_ok; simpl; intros H.
  unfold_callbacks; simpl.
  destruct st; simpl;
    repeat (first [break_if | break_match]; simpl);
    first [assumption | reflexivity | discriminate].
Qed.

Lemma text_keeps_known_type (self : OstreeMetalinkRequest) (text : string) :
  known_type_ok self = true ->
  holds_after known_type_ok (metalink_parser_text self text).
Proof.
  destruct self as [rf pd pp fa fo vk vt sz s2 s5 vv fn us st].
  unfold known_type_ok; simpl; intros H.
  unfold_callbacks; simpl.
  destruct st; simpl; try assumption.
  - destruct vk; simpl; [|assumption].
    destruct vt; simpl in *; try assumption; discriminate.
  - break_match; simpl; assumption.
Qed.

Lemma dispatch_keeps_known_type (self : OstreeMetalinkRequest) (ev : markup_event) :
  known_type_ok self = true ->
  holds_after known_type_ok (dispatch self ev).
Proof.
  destruct ev as [n a|n|t]; simpl.
  - apply start_keeps_known_type.
  - auto.
  - apply text_keeps_known_type.
Qed.

Lemma parse_keeps_known_type (events : list markup_event) :
  forall self, known_type_ok self = true ->
  holds_after known_type_ok (g_markup_parse_context_parse self events).
Proof.
  induction events as [|ev rest IH]; intros self H; simpl.
  - exact H.
  - pose proof (dispatch_keeps_known_type self ev H) as Hd.
    destruct (dispatch self ev) as [mid|mid e|a]; simpl in *; auto.
Qed.

(** C10.  Whatever events the request has received since it was created,
    a set [verification_known] comes with a [verification_type] of SHA256 or
    SHA512, and no event reaches the [g_assert_not_reached] of the text
    callback. *)
Theorem known_type_is_sha (requested : string) (events : list markup_event) :
  match g_markup_parse_context_parse (new_request requested) events with
  | Continue self | Failed self _ =>
      implb (verification_known self)
            (match verification_type self with
             | G_CHECKSUM_SHA256 | G_CHECKSUM_SHA512 => true
             | _ => false
             end) = true
  | Aborted a => a <> ASSERT_NOT_REACHED
  end.
Proof.
  exact (parse_keeps_known_type events (new_request requested) eq_refl).
Qed.

(** *** What a request created by [_ostree_metalink_request_async] can reach

    The end callback leaves the state where the start callback put it, so
    the states are entered in one direction only: SIZE and HASH lead to
    PASSTHROUGH, and PASSTHROUGH leads nowhere. *)

Lemma new_request_unresolved (requested : string) :
  unresolved (new_request requested).
Proof. repeat split. Qed.

Lemma dispatch_unresolved (self : OstreeMetalinkRequest) (ev : markup_event) :
  unresolved self -> stays_unresolved (dispatch self ev).
Proof.
  destruct self as [rf pd pp fa fo vk vt sz s2 s5 vv fn us st].
  unfold unresolved; simpl; intros (H2 & H5 & Hu & Hst); subst.
  destruct ev as [n a|n|t]; unfold_callbacks; simpl.
  - destruct st; simpl in *;
      repeat match goal with
             | H : _ /\ _ |- _ => destruct H
             | H : False |- _ => destruct H
             end; subst; simpl;
      repeat (first [break_if | break_match]; simpl);
      unfold unresolved; simpl; try discriminate; repeat split; auto.
  - unfold unresolved; simpl; repeat split; auto.
  - destruct st; simpl in *;
      repeat match goal with
             | H : _ /\ _ |- _ => destruct H
             | H : False |- _ => destruct H
             end; subst; simpl;
      unfold unresolved; simpl; repeat split; auto.
Qed.

Lemma parse_unresolved (events : list markup_event) :
  forall self, unresolved self ->
  stays_unresolved (g_markup_parse_context_parse self events).
Proof.
  induction events as [|ev rest IH]; intros self H; simpl.
  - exact H.
  - pose proof (dispatch_unresolved self ev H) as Hd.
    destruct (dispatch self ev) as [mid|mid e|a]; simpl in *; auto.
Qed.

Lemma unresolved_fails_checks (self : OstreeMetalinkRequest) :
  unresolved self -> start_target_request_phase self <> None.
Proof.
  intros (H2 & H5 & _ & _). unfold start_target_request_phase.
  rewrite H2, H5; simpl.
  destruct (found_a_file_element self), (found_our_file_element self);
    simpl; discriminate.
Qed.

Lemma read_loop_never_done (reads : list read_result) :
  forall self, unresolved self ->
  not_done (fst (on_metalink_bytes_read self reads)).
Proof.
  induction reads as [|r rest IH]; intros self H; simpl; [exact I|].
  destruct r as [e|events|]; simpl; try exact I.
  - pose proof (parse_unresolved events self H) as Hp.
    destruct (g_markup_parse_context_parse self events) as [mid|mid e|a];
      simpl in *; auto.
  - pose proof (unresolved_fails_checks self H) as Hc.
    destruct (start_target_request_phase self); simpl; [exact I|congruence].
Qed.

(** No assertion of the callbacks fails on a request that started fresh. *)
Lemma parse_never_aborts (requested : string) (events : list markup_event) :
  forall a, g_markup_parse_context_parse (new_request requested) events <> Aborted a.
Proof.
  intros a Ha.
  pose proof (parse_unresolved events _ (new_request_unresolved requested)) as H.
  rewrite Ha in H. exact H.
Qed.

(** *** The defects of the callbacks and of the wrapper *)

(** C1.  The parser never resolves a document: on the sample manifest, which
    names the requested file with a nonzero size, a well-formed sha256 digest
    and an http URL, the size element leaves the state in SIZE, the
    verification element then starts a passthrough that never ends, no digest
    is stored and the final checks fail; and the same holds of every stream,
    no completion carries a target. *)
Theorem resolve_never_succeeds :
  resolve "f" [sample_manifest] = TASK_ERROR NO_DIGEST
  /\ (forall requested chunks, not_done (resolve requested chunks))
  /\ (forall requested stream,
        not_done (fst (_ostree_metalink_request_async requested stream))).
Proof.
  assert (H : forall requested stream,
             not_done (fst (_ostree_metalink_request_async requested stream))).
  { intros requested [reads|e]; simpl; [|exact I].
    apply read_loop_never_done, new_request_unresolved. }
  split; [reflexivity|]. split; [|exact H].
  intros requested chunks. apply H.
Qed.

(** C2.  [metalink_parser_end] changes nothing: after
    [<metalink></metalink>] the state is still METALINK, and after an unknown
    [description] subtree inside [file] the state is still PASSTHROUGH, the
    following [size] only deepens the passthrough and its text is not
    read. *)
Theorem end_element_changes_nothing :
  (forall self element_name,
      metalink_parser_end self element_name = Continue self)
  /\ g_markup_parse_context_parse (new_request "f")
       [StartElement "metalink" []; EndElement "metalink"]
     = Continue (set_state OSTREE_METALINK_STATE_METALINK (new_request "f"))
  /\ g_markup_parse_context_parse (new_request "f") manifest_with_unknown_block
     = Continue (mkRequest "f" 6 OSTREE_METALINK_STATE_INITIAL true true false
                   G_CHECKSUM_MD5 0 None None None None []
                   OSTREE_METALINK_STATE_PASSTHROUGH)
  /\ resolve "f" [manifest_with_unknown_block] = TASK_ERROR NO_DIGEST.
Proof.
  repeat split.
Qed.

(** C8.  A [hash] element with an unsupported algorithm clears
    [verification_known] even after a recognized one, and a document with
    both a sha256 and an md5 hash, in either order, fails the final checks
    with the no-digest error. *)
Theorem unsupported_hash_clears_known :
  metalink_parser_start request_after_sha256 "hash" [("name", "md5")]
  = Continue (set_verification_known false
                (set_state OSTREE_METALINK_STATE_HASH request_after_sha256))
  /\ resolve "f" [manifest_with_hashes
                    (hash_element "sha256" sample_sha256 ++ hash_element "md5" "d41d")%list]
     = TASK_ERROR NO_DIGEST
  /\ resolve "f" [manifest_with_hashes
                    (hash_element "md5" "d41d" ++ hash_element "sha256" sample_sha256)%list]
     = TASK_ERROR NO_DIGEST.
Proof.
  repeat split.
Qed.

(** C9.  [_ostree_metalink_request_sync] returns at once: the flag it loops
    on starts cleared, so the loop body never runs, the completion callback
    has not run when the function returns, and the value returned is FALSE
    whatever the request would have completed with. *)
Theorem sync_returns_before_completion (fuel latency : nat) (finish_value : bool) :
  _ostree_metalink_request_sync fuel latency finish_value = Some (false, false).
Proof.
  unfold _ostree_metalink_request_sync. destruct fuel; reflexivity.
Qed.

(** *** The final checks and the read loop *)


(** Reading chunk after chunk parses the concatenation of the chunks. *)
Lemma read_loop_chunks (chunks : list (list markup_event)) (rest : list read_result) :
  forall self,
    on_metalink_bytes_read self (map READ_BYTES chunks ++ rest)%list
    = match g_markup_parse_context_parse self (List.concat chunks) with
      | Continue self => on_metalink_bytes_read self rest
      | Failed _ e => (TASK_ERROR e, O)
      | Aborted a => (TASK_ABORTED a, O)
      end.
Proof.
  induction chunks as [|c chunks IH]; intros self; simpl; [reflexivity|].
  rewrite parse_app.
  destruct (g_markup_parse_context_parse self c) as [mid|mid e|a]; simpl;
    [apply IH|reflexivity|reflexivity].
Qed.


(** *** The precondition of the RESOURCES state *)

Lemma dispatch_known_needs_hash (self self' : OstreeMetalinkRequest)
      (ev : markup_event) :
  verification_known self = false -> recognized_hash ev = false ->
  dispatch self ev = Continue self' -> verification_known self' = false.
Proof.
  destruct self as [rf pd pp fa fo vk vt sz s2 s5 vv fn us st].
  simpl; intros -> Hr.
  destruct ev as [n a|n|t]; unfold_callbacks; simpl in *.
  - destruct st; simpl;
      repeat (first [break_if | break_match]; simpl);
      intros H; inversion H; subst; simpl; try reflexivity.
    all: rewrite ?Heqs in Hr; simpl in Hr;
      repeat match goal with
             | H : (_ =? _)%string = true |- _ => rewrite H in Hr; simpl in Hr
             end; discriminate.
  - intros H; inversion H; reflexivity.
  - destruct st; simpl; repeat (first [break_if | break_match]; simpl);
      intros H; inversion H; subst; reflexivity.
Qed.

Lemma parse_known_needs_hash (events : list markup_event) :
  forall self self',
    verification_known self = false -> existsb recognized_hash events = false ->
    g_markup_parse_context_parse self events = Continue self' ->
    verification_known self' = false.
Proof.
  induction events as [|ev rest IH]; intros self self' Hk He; simpl.
  - intros H; inversion H; subst; exact Hk.
  - simpl in He. apply orb_false_iff in He as [He1 He2].
    intros H. apply and_then_continue in H as (mid & Hd & Hp).
    apply (IH mid self'); auto.
    apply (dispatch_known_needs_hash self mid ev); auto.
Qed.

(** X17.  A start-of-element event that finds the request in RESOURCES fails
    before the element name is looked at: with the zero-size error when the
    size is zero, whatever digest has been recorded, and otherwise with the
    no-known-hash error when no recognized hash element has been seen since a
    request whose flag was clear. *)
Theorem resources_precondition
        (before self : OstreeMetalinkRequest) (events : list markup_event)
        (element_name : string) (attrs : attributes) :
  g_markup_parse_context_parse before events = Continue self ->
  state self = OSTREE_METALINK_STATE_RESOURCES ->
  size self = 0
  \/ (verification_known before = false /\ existsb recognized_hash events = false) ->
  metalink_parser_start self element_name attrs
  = Failed self (if size self =? 0 then NO_SIZE else NO_KNOWN_HASH).
Proof.
  intros Hp Hs Hc.
  unfold metalink_parser_start. rewrite Hs.
  destruct (size self =? 0) eqn:Hz; [reflexivity|].
  destruct Hc as [H0|[Hk He]].
  - rewrite H0 in Hz. discriminate.
  - rewrite (parse_known_needs_hash events before self Hk He Hp). reflexivity.
Qed.

Lemma resources_precondition_witness :
  metalink_parser_start request_in_resources "url" [("protocol", "http")]
  = Failed request_in_resources NO_SIZE
  /\ metalink_parser_start
       (set_state OSTREE_METALINK_STATE_RESOURCES request_in_file)
       "url" [("protocol", "http")]
     = Failed (set_state OSTREE_METALINK_STATE_RESOURCES request_in_file)
              NO_KNOWN_HASH.
Proof.
  split.
  - exact (resources_precondition (new_request "f") request_in_resources
             events_to_resources "url" [("protocol", "http")]
             eq_refl eq_refl (or_introl eq_refl)).
  - exact (resources_precondition request_in_file
             (set_state OSTREE_METALINK_STATE_RESOURCES request_in_file)
             [StartElement "resources" []] "url" [("protocol", "http")]
             eq_refl eq_refl (or_intror (conj eq_refl eq_refl))).
Defined.

(** ** Further properties of the callbacks *)

Ltac split_hyps :=
  repeat match goal with
         | H : _ /\ _ |- _ => destruct H
         | H : (_ && _) = true |- _ => apply andb_true_iff in H; destruct H
         | H : False |- _ => destruct H
         end.

Ltac use_true :=
  repeat match goal with
         | H : ?x = true |- context [?x] => rewrite H
         | H : ?x = false |- context [?x] => rewrite H
         end.

Lemma dispatch_keeps_assertions (self : OstreeMetalinkRequest) (ev : markup_event) :
  assertions_hold self = true -> never_aborted (dispatch self ev).
Proof.
  destruct self as [rf pd pp fa fo vk vt sz s2 s5 vv fn us st].
  unfold assertions_hold, known_type_ok; simpl; intros H.
  apply andb_true_iff in H as [Hd Hk].
  destruct ev as [n a|n|t]; unfold_callbacks; simpl.
  - destruct st; simpl in Hd; try rewrite Hd; simpl;
      repeat (first [break_if | break_match]; simpl);
      unfold assertions_hold, known_type_ok; simpl;
      use_true; simpl; try reflexivity; try discriminate.
  - unfold assertions_hold, known_type_ok; simpl. rewrite Hd, Hk. reflexivity.
  - destruct st; simpl in Hd; simpl;
      repeat (first [break_if | break_match]; simpl);
      unfold assertions_hold, known_type_ok; simpl;
      use_true; simpl; try reflexivity;
      simpl in Hk; discriminate.
Qed.

(** X1.  No [g_assert] of the callbacks fails, whatever the events, on a
    request whose passthrough depth is zero outside PASSTHROUGH and whose
    [verification_known], if set, comes with a sha256 or sha512 type; a
    request just created is one. *)
Theorem no_assertion_fails
        (self : OstreeMetalinkRequest) (events : list markup_event) :
  assertions_hold self = true ->
  never_aborted (g_markup_parse_context_parse self events).
Proof.
  revert self; induction events as [|ev rest IH]; intros self H; simpl.
  - exact H.
  - pose proof (dispatch_keeps_assertions self ev H) as Hd.
    destruct (dispatch self ev) as [mid|mid e|a]; simpl in *; auto.
Qed.

Lemma no_assertion_fails_witness :
  never_aborted (g_markup_parse_context_parse (new_request "f") sample_manifest).
Proof.
  apply (no_assertion_fails (new_request "f") sample_manifest).
  reflexivity.
Defined.

Lemma passthrough_step (self : OstreeMetalinkRequest) (ev : markup_event) :
  state self = OSTREE_METALINK_STATE_PASSTHROUGH ->
  dispatch self ev
  = Continue (if is_start ev
              then set_passthrough_depth
                     ((passthrough_depth self + 1) mod (G_MAXUINT + 1)) self
              else self).
Proof.
  intros Hs. destruct ev as [n a|n|t]; unfold_callbacks; rewrite ?Hs; reflexivity.
Qed.

Lemma set_depth_same (self : OstreeMetalinkRequest) :
  set_passthrough_depth (passthrough_depth self) self = self.
Proof. destruct self; reflexivity. Qed.

Lemma set_depth_twice (d d' : Z) (self : OstreeMetalinkRequest) :
  set_passthrough_depth d (set_passthrough_depth d' self)
  = set_passthrough_depth d self.
Proof. destruct self; reflexivity. Qed.

(** X2.  PASSTHROUGH is never left: a request in that state goes through
    any events without failing, and comes out the same except that
    [passthrough_depth] has gone up by the number of start events, modulo
    2^32; the end events do not bring it down. *)
Theorem passthrough_absorbs
        (self : OstreeMetalinkRequest) (events : list markup_event) :
  state self = OSTREE_METALINK_STATE_PASSTHROUGH ->
  0 <= passthrough_depth self <= G_MAXUINT ->
  g_markup_parse_context_parse self events
  = Continue (set_passthrough_depth
                ((passthrough_depth self + count_starts events) mod (G_MAXUINT + 1))
                self).
Proof.
  revert self; induction events as [|ev rest IH]; intros self Hs Hd.
  - simpl. unfold count_starts; simpl. rewrite Z.add_0_r.
    rewrite Z.mod_small by (unfold G_MAXUINT in *; lia).
    rewrite set_depth_same. reflexivity.
  - cbn [g_markup_parse_context_parse]. rewrite (passthrough_step self ev Hs).
    cbn [and_then]. destruct (is_start ev) eqn:He.
    + rewrite IH.
      * rewrite set_depth_twice.
        replace (count_starts (ev :: rest)) with (1 + count_starts rest)
          by (unfold count_starts; cbn [filter]; rewrite He;
              cbn [List.length]; lia).
        f_equal. f_equal.
        destruct self as [rf pd pp fa fo vk vt sz s2 s5 vv fn us st];
          cbn [passthrough_depth set_passthrough_depth].
        rewrite Zplus_mod_idemp_l. f_equal. lia.
      * destruct self; simpl in *; exact Hs.
      * destruct self as [rf pd pp fa fo vk vt sz s2 s5 vv fn us st];
          cbn [passthrough_depth set_passthrough_depth].
        pose proof (Z.mod_pos_bound (pd + 1) (G_MAXUINT + 1)) as Hb.
        unfold G_MAXUINT in *. lia.
    + rewrite (IH self Hs Hd).
      replace (count_starts (ev :: rest)) with (count_starts rest)
        by (unfold count_starts; cbn [filter]; rewrite He; reflexivity).
      reflexivity.
Qed.

Lemma passthrough_absorbs_witness :
  g_markup_parse_context_parse request_in_passthrough sample_manifest
  = Continue (set_passthrough_depth
                ((passthrough_depth request_in_passthrough
                  + count_starts sample_manifest) mod (G_MAXUINT + 1))
                request_in_passthrough).
Proof.
  apply (passthrough_absorbs request_in_passthrough sample_manifest).
  - reflexivity.
  - unfold G_MAXUINT; simpl; lia.
Defined.

Lemma parse_step (self : OstreeMetalinkRequest) (ev : markup_event)
      (rest : list markup_event) :
  g_markup_parse_context_parse self (ev :: rest)
  = match dispatch self ev with
    | Continue mid => g_markup_parse_context_parse mid rest
    | Failed mid e => Failed mid e
    | Aborted a => Aborted a
    end.
Proof. reflexivity. Qed.

(** A relation between the request before and after that is reflexive,
    transitive and kept by every callback holds over every run. *)
Section Runs.

Variable R : OstreeMetalinkRequest -> OstreeMetalinkRequest -> Prop.
Hypothesis R_refl : forall self, R self self.
Hypothesis R_trans : forall a b c, R a b -> R b c -> R a c.
Hypothesis R_step : forall self ev, after_events (R self) (dispatch self ev).

Lemma after_run (events : list markup_event) :
  forall self, after_events (R self) (g_markup_parse_context_parse self events).
Proof.
  induction events as [|ev rest IH]; intros self.
  - simpl. apply R_refl.
  - rewrite parse_step. pose proof (R_step self ev) as Hd.
    destruct (dispatch self ev) as [mid|mid e|a]; simpl in *; auto.
    specialize (IH mid).
    destruct (g_markup_parse_context_parse mid rest) as [s|s e|a];
      simpl in *; eauto.
Qed.

End Runs.

Ltac callback_cases st :=
  unfold_callbacks; simpl; destruct st; simpl;
  repeat (first [break_if | break_match]; simpl).

Lemma dispatch_keeps_flags (self : OstreeMetalinkRequest) (ev : markup_event) :
  after_events (flags_kept self) (dispatch self ev).
Proof.
  destruct self as [rf pd pp fa fo vk vt sz s2 s5 vv fn us st].
  destruct ev as [n a|n|t]; callback_cases st;
    unfold flags_kept; simpl; try exact I; destruct fa, fo; reflexivity.
Qed.

(** X3.  The flags [found_a_file_element] and [found_our_file_element] are
    only ever set: whatever the events, a flag that was set is still set in
    the request the parse ends with, also when the parse fails. *)
Theorem found_flags_never_reset
        (self : OstreeMetalinkRequest) (events : list markup_event) :
  after_events
    (fun self' =>
       implb (found_a_file_element self) (found_a_file_element self')
       && implb (found_our_file_element self) (found_our_file_element self') = true)
    (g_markup_parse_context_parse self events).
Proof.
  apply (after_run flags_kept).
  - intros s. unfold flags_kept.
    destruct (found_a_file_element s), (found_our_file_element s); reflexivity.
  - intros a b c. unfold flags_kept.
    destruct (found_a_file_element a), (found_our_file_element a),
      (found_a_file_element b), (found_our_file_element b),
      (found_a_file_element c), (found_our_file_element c);
      simpl; congruence.
  - apply dispatch_keeps_flags.
Qed.

Lemma dispatch_keeps_our_implies_a (self : OstreeMetalinkRequest) (ev : markup_event) :
  implb (found_our_file_element self) (found_a_file_element self) = true ->
  after_events
    (fun self' =>
       implb (found_our_file_element self') (found_a_file_element self') = true)
    (dispatch self ev).
Proof.
  destruct self as [rf pd pp fa fo vk vt sz s2 s5 vv fn us st]; simpl; intros H.
  destruct ev as [n a|n|t]; callback_cases st;
    try exact I; try assumption; try reflexivity; destruct fo; reflexivity.
Qed.

(** X4.  The requested file counts as a file: if [found_our_file_element]
    implies [found_a_file_element] before the events, as in a request just
    created, it does so after them; the final checks then report a missing
    requested file only for documents that have some file element. *)
Theorem our_file_is_a_file
        (self : OstreeMetalinkRequest) (events : list markup_event) :
  implb (found_our_file_element self) (found_a_file_element self) = true ->
  after_events
    (fun self' =>
       implb (found_our_file_element self') (found_a_file_element self') = true)
    (g_markup_parse_context_parse self events).
Proof.
  revert self; induction events as [|ev rest IH]; intros self H.
  - exact H.
  - rewrite parse_step. pose proof (dispatch_keeps_our_implies_a self ev H) as Hd.
    destruct (dispatch self ev) as [mid|mid e|a]; simpl in *; auto.
Qed.

Lemma our_file_is_a_file_witness :
  after_events
    (fun self' =>
       implb (found_our_file_element self') (found_a_file_element self') = true)
    (g_markup_parse_context_parse (new_request "f") sample_manifest).
Proof.
  apply (our_file_is_a_file (new_request "f") sample_manifest).
  reflexivity.
Defined.

Lemma dispatch_appends_urls (self : OstreeMetalinkRequest) (ev : markup_event) :
  after_events
    (fun self' =>
       exists added,
         urls self' = (urls self ++ added)%list
         /\ (List.length added <= count_texts [ev])%nat)
    (dispatch self ev).
Proof.
  destruct self as [rf pd pp fa fo vk vt sz s2 s5 vv fn us st].
  destruct ev as [n a|n|t]; callback_cases st; try exact I;
    first [ exists []; rewrite app_nil_r; split; [reflexivity|simpl; lia]
          | eexists [_]; split; [reflexivity|unfold count_texts; simpl; lia] ].
Qed.

(** X5.  The URL array only grows at its end: the URLs a request holds
    before the events are still there after them, in the same order and in
    front, and at most one URL is added per text event. *)
Theorem urls_only_appended
        (self : OstreeMetalinkRequest) (events : list markup_event) :
  after_events
    (fun self' =>
       exists added,
         urls self' = (urls self ++ added)%list
         /\ (List.length added <= count_texts events)%nat)
    (g_markup_parse_context_parse self events).
Proof.
  revert self; induction events as [|ev rest IH]; intros self.
  - simpl. exists []. rewrite app_nil_r. split; [reflexivity|simpl; lia].
  - rewrite parse_step. pose proof (dispatch_appends_urls self ev) as Hd.
    assert (Hc : (count_texts (ev :: rest)
                  = count_texts [ev] + count_texts rest)%nat).
    { unfold count_texts. cbn [filter]. destruct (is_text ev); reflexivity. }
    destruct (dispatch self ev) as [mid|mid e|a]; cbn [after_events] in *.
    + specialize (IH mid).
      destruct (g_markup_parse_context_parse mid rest) as [self'|self' e|a];
        cbn [after_events] in *; try exact I;
        destruct Hd as (a1 & E1 & L1); destruct IH as (a2 & E2 & L2);
        exists (a1 ++ a2)%list; (split;
          [rewrite E2, E1, app_assoc; reflexivity|rewrite length_app; lia]).
    + destruct Hd as (a1 & E1 & L1). exists a1. split; [exact E1|lia].
    + exact I.
Qed.

Lemma dispatch_moves_on (self : OstreeMetalinkRequest) (ev : markup_event) :
  after_events (moves_on self) (dispatch self ev).
Proof.
  destruct self as [rf pd pp fa fo vk vt sz s2 s5 vv fn us st].
  destruct ev as [n a|n|t]; callback_cases st; unfold moves_on; simpl;
    try exact I; first [left; reflexivity | right; lia].
Qed.

Lemma dispatch_without_start (self : OstreeMetalinkRequest) (ev : markup_event) :
  is_start ev = false ->
  after_events (fun self' => state self' = state self) (dispatch self ev).
Proof.
  destruct self as [rf pd pp fa fo vk vt sz s2 s5 vv fn us st].
  destruct ev as [n a|n|t]; try discriminate; intros _; callback_cases st;
    try exact I; reflexivity.
Qed.

Lemma parse_without_start (events : list markup_event) :
  forall self,
    after_events
      (fun self' => existsb is_start events = true \/ state self' = state self)
      (g_markup_parse_context_parse self events).
Proof.
  induction events as [|ev rest IH]; intros self.
  - simpl. right. reflexivity.
  - rewrite parse_step. cbn [existsb]. destruct (is_start ev) eqn:He.
    + destruct (dispatch self ev) as [mid|mid e|a]; simpl; auto.
      destruct (g_markup_parse_context_parse mid rest); simpl; auto.
    + pose proof (dispatch_without_start self ev He) as Hd.
      destruct (dispatch self ev) as [mid|mid e|a]; simpl in *; auto.
      specialize (IH mid).
      destruct (g_markup_parse_context_parse mid rest); simpl in *; auto;
        rewrite <- Hd; exact IH.
Qed.

(** X6.  The states are entered in one direction only: after any events the
    state is the one before or one further from INITIAL in the order INITIAL,
    METALINK, FILES, FILE, then SIZE, VERIFICATION or RESOURCES, then HASH
    or URL, then PASSTHROUGH, so that a state once left is not entered
    again; and only a start event changes the state. *)
Theorem state_never_goes_back
        (self : OstreeMetalinkRequest) (events : list markup_event) :
  after_events
    (fun self' =>
       (state self' = state self
        \/ (state_rank (state self) < state_rank (state self'))%nat)
       /\ (existsb is_start events = true \/ state self' = state self))
    (g_markup_parse_context_parse self events).
Proof.
  assert (H1 : after_events (moves_on self)
                 (g_markup_parse_context_parse self events)).
  { apply (after_run moves_on).
    - intros s. left. reflexivity.
    - intros a b c [Hab|Hab] [Hbc|Hbc]; unfold moves_on.
      + left. congruence.
      + right. rewrite <- Hab. exact Hbc.
      + right. rewrite Hbc. exact Hab.
      + right. lia.
    - apply dispatch_moves_on. }
  pose proof (parse_without_start events self) as H2.
  destruct (g_markup_parse_context_parse self events); simpl in *; auto.
Qed.

Lemma dispatch_unwritten (self : OstreeMetalinkRequest) (ev : markup_event) :
  after_events (unwritten self) (dispatch self ev).
Proof.
  destruct self as [rf pd pp fa fo vk vt sz s2 s5 vv fn us st].
  destruct ev as [n a|n|t]; callback_cases st; unfold unwritten; simpl;
    try exact I; repeat split.
Qed.

(** X7.  No callback writes [requested_file] or [passthrough_previous], and
    none enters the state ERROR: after any events the two fields are as
    before and the state is ERROR only if it was. *)
Theorem fields_never_written
        (self : OstreeMetalinkRequest) (events : list markup_event) :
  after_events
    (fun self' =>
       requested_file self' = requested_file self
       /\ passthrough_previous self' = passthrough_previous self
       /\ state_eqb (state self') OSTREE_METALINK_STATE_ERROR
          = state_eqb (state self) OSTREE_METALINK_STATE_ERROR)
    (g_markup_parse_context_parse self events).
Proof.
  apply (after_run unwritten).
  - intros s. repeat split.
  - intros a b c (H1 & H2 & H3) (H4 & H5 & H6). unfold unwritten.
    repeat split; congruence.
  - apply dispatch_unwritten.
Qed.

(** X8.  A start callback that fails has changed next to nothing: the
    request it leaves is the one it found, or that one with [file_name]
    cleared (a [file] without a usable [name]), or that one moved to HASH (a
    [hash] without a usable [name]). *)
Theorem failed_start_changes_little
        (self self' : OstreeMetalinkRequest) (element_name : string)
        (attrs : attributes) (e : GError) :
  metalink_parser_start self element_name attrs = Failed self' e ->
  self' = self
  \/ self' = set_file_name None self
  \/ self' = set_state OSTREE_METALINK_STATE_HASH self.
Proof.
  destruct self as [rf pd pp fa fo vk vt sz s2 s5 vv fn us st].
  callback_cases st; intros H; try discriminate; inversion H; subst; auto.
Qed.

Lemma failed_start_changes_little_witness :
  request_in_resources = request_in_resources
  \/ request_in_resources = set_file_name None request_in_resources
  \/ request_in_resources
     = set_state OSTREE_METALINK_STATE_HASH request_in_resources.
Proof.
  apply (failed_start_changes_little request_in_resources request_in_resources
           "url" [("protocol", "http")] NO_SIZE).
  reflexivity.
Defined.

Lemma unresolved_error (self : OstreeMetalinkRequest) :
  unresolved self ->
  start_target_request_phase self = Some (error_without_digest self).
Proof.
  intros (H2 & H5 & _ & _).
  unfold start_target_request_phase, error_without_digest.
  rewrite H2, H5; simpl.
  destruct (found_a_file_element self), (found_our_file_element self); reflexivity.
Qed.

(** X9.  What a resolution started by [_ostree_metalink_request_async]
    ends with: the error of the first callback that fails, and otherwise,
    since no digest is ever stored, the error of the final checks for no
    file element, for no file element of the requested name, or for no
    digest, in that order of precedence. *)
Theorem fresh_request_outcome
        (requested : string) (chunks : list (list markup_event)) :
  resolve requested chunks
  = match g_markup_parse_context_parse (new_request requested) (List.concat chunks) with
    | Continue self =>
        TASK_ERROR (if negb (found_a_file_element self) then NO_FILE_ELEMENT
                    else if negb (found_our_file_element self)
                    then NO_REQUESTED_FILE requested
                    else NO_DIGEST)
    | Failed _ e => TASK_ERROR e
    | Aborted a => TASK_ABORTED a
    end.
Proof.
  unfold resolve, _ostree_metalink_request_async.
  rewrite read_loop_chunks.
  pose proof (parse_unresolved (List.concat chunks) _
                (new_request_unresolved requested)) as Hu.
  pose proof (after_run unwritten
                ltac:(intros s; repeat split)
                ltac:(intros a b c (H1 & H2 & H3) (H4 & H5 & H6);
                      unfold unwritten; repeat split; congruence)
                dispatch_unwritten (List.concat chunks) (new_request requested))
    as Hw.
  destruct (g_markup_parse_context_parse (new_request requested) (List.concat chunks))
    as [self|self e|a]; simpl in *; try reflexivity.
  rewrite (unresolved_error self Hu). unfold error_without_digest.
  destruct Hw as (Hr & _). rewrite Hr. reflexivity.
Qed.





(** X14.  The size is written by the text of a [size] element only: an
    event changes [size] only if it is a text event received in SIZE, and
    the size is then what [g_ascii_strtoull] reads in that text. *)
Theorem size_written_in_size_only
        (self self' : OstreeMetalinkRequest) (ev : markup_event) :
  dispatch self ev = Continue self' ->
  size self' <> size self ->
  state self = OSTREE_METALINK_STATE_SIZE
  /\ exists text,
       ev = Text text /\ size self' = g_ascii_strtoull (g_strndup text).
Proof.
  destruct self as [rf pd pp fa fo vk vt sz s2 s5 vv fn us st].
  destruct ev as [n a|n|t]; callback_cases st;
    intros H; try discriminate; inversion H; subst; clear H; simpl;
    intros Hc; try congruence.
  split; [reflexivity|]. exists t. split; reflexivity.
Qed.

Lemma size_written_in_size_only_witness :
  state request_in_size = OSTREE_METALINK_STATE_SIZE
  /\ exists text,
       Text "12" = Text text
       /\ size (set_size 12 request_in_size) = g_ascii_strtoull (g_strndup text).
Proof.
  apply (size_written_in_size_only request_in_size (set_size 12 request_in_size)
           (Text "12")).
  - reflexivity.
  - simpl. discriminate.
Defined.

(** X15.  [verification_known] follows the last [hash] element alone: an
    event changes the flag only if it is the start of a [hash] element
    received in VERIFICATION with a [name] attribute, and the flag then says
    whether that name is [sha256] or [sha512]. *)
Theorem known_follows_last_hash
        (self self' : OstreeMetalinkRequest) (ev : markup_event) :
  dispatch self ev = Continue self' ->
  verification_known self' <> verification_known self ->
  state self = OSTREE_METALINK_STATE_VERIFICATION
  /\ exists attrs name,
       ev = StartElement "hash" attrs
       /\ g_markup_collect_attributes "hash" attrs "name" = inl name
       /\ verification_known self'
          = ((name =? "sha256")%string || (name =? "sha512")%string).
Proof.
  destruct self as [rf pd pp fa fo vk vt sz s2 s5 vv fn us st].
  destruct ev as [n a|n|t]; callback_cases st;
    intros H; try discriminate; inversion H; subst; clear H; simpl;
    intros Hc; try congruence;
    match goal with
    | Hn : (n =? "hash")%string = true |- _ => apply String.eqb_eq in Hn; subst n
    end;
    (split; [reflexivity|]); eexists; eexists;
    (split; [reflexivity|]); (split; [eassumption|]);
    use_true; reflexivity.
Qed.

Lemma known_follows_last_hash_witness :
  state request_after_sha256 = OSTREE_METALINK_STATE_VERIFICATION
  /\ exists attrs name,
       StartElement "hash" [("name", "md5")] = StartElement "hash" attrs
       /\ g_markup_collect_attributes "hash" attrs "name" = inl name
       /\ verification_known
            (set_verification_known false
               (set_state OSTREE_METALINK_STATE_HASH request_after_sha256))
          = ((name =? "sha256")%string || (name =? "sha512")%string).
Proof.
  apply (known_follows_last_hash request_after_sha256
           (set_verification_known false
              (set_state OSTREE_METALINK_STATE_HASH request_after_sha256))
           (StartElement "hash" [("name", "md5")])).
  - reflexivity.
  - simpl. discriminate.
Defined.

(** *** Where the digest fields are written *)



(** X16.  Outside VERIFICATION no event touches the digest fields: a
    callback that finds the request in any other state, HASH included,
    leaves [verification_sha256] and [verification_sha512] as they were,
    whether it returns normally or with an error. *)
Theorem digests_untouched_outside_verification
        (self : OstreeMetalinkRequest) (ev : markup_event) :
  state self <> OSTREE_METALINK_STATE_VERIFICATION ->
  after_events
    (fun self' =>
       verification_sha256 self' = verification_sha256 self
       /\ verification_sha512 self' = verification_sha512 self)
    (dispatch self ev).
Proof.
  destruct self as [rf pd pp fa fo vk vt sz s2 s5 vv fn us st]; simpl; intros Hs.
  destruct ev as [n a|n|t]; callback_cases st; try exact I;
    try (split; reflexivity); congruence.
Qed.

Lemma digests_untouched_outside_verification_witness :
  after_events
    (fun self' =>
       verification_sha256 self' = verification_sha256 request_after_hash_text
       /\ verification_sha512 self' = verification_sha512 request_after_hash_text)
    (dispatch request_after_hash_text (Text sample_sha256)).
Proof.
  apply (digests_untouched_outside_verification request_after_hash_text
           (Text sample_sha256)).
  simpl. discriminate.
Defined.

(** *** Documents with a zero or absent size *)

Lemma collect_error_is_markup (element wanted : string) (attrs : attributes)
      (e : GError) :
  g_markup_collect_attributes element attrs wanted = inr e ->
  is_io_error e = false.
Proof.
  unfold g_markup_collect_attributes.
  destruct (find_attribute wanted attrs) as [[k v]|].
  - destruct (first_uncollected 0 k attrs) as [[i n]|]; [|discriminate].
    destruct (existsb _ _); intros H; inversion H; reflexivity.
  - intros H; inversion H; reflexivity.
Qed.

Lemma dispatch_no_known_hash_error (self : OstreeMetalinkRequest) (ev : markup_event) :
  unresolved self -> no_known_hash_error (dispatch self ev).
Proof.
  destruct self as [rf pd pp fa fo vk vt sz s2 s5 vv fn us st].
  unfold unresolved; simpl; intros (H2 & H5 & Hu & Hst); subst.
  destruct ev as [n a|n|t]; unfold_callbacks; simpl.
  - destruct st; simpl in *; split_hyps; subst; simpl;
      repeat (first [break_if | break_match]; simpl); try exact I;
      try discriminate;
      match goal with
      | H : g_markup_collect_attributes _ _ _ = inr ?e |- ?e <> _ =>
          apply collect_error_is_markup in H; intros ->; discriminate H
      end.
  - exact I.
  - destruct st; simpl in *; split_hyps; subst; simpl; exact I.
Qed.

Lemma parse_no_known_hash_error (events : list markup_event) :
  forall self, unresolved self ->
  no_known_hash_error (g_markup_parse_context_parse self events).
Proof.
  induction events as [|ev rest IH]; intros self H; [exact I|].
  rewrite parse_step.
  pose proof (dispatch_no_known_hash_error self ev H) as Hd.
  pose proof (dispatch_unresolved self ev H) as Hu.
  destruct (dispatch self ev) as [mid|mid e|a]; simpl in *; auto.
Qed.

(** C6.  A document whose file has a zero size, or no size, is not
    rejected inside [resources]: with [<size>0</size>] in front, or with the
    verification block in front, the state is PASSTHROUGH long before
    [<resources>], no callback fails, and the resolution ends at the final
    checks with the no-digest error instead of the zero-size error; and no
    resolution at all ends with the error of the second check made in
    RESOURCES. *)
Theorem zero_size_not_rejected_in_resources :
  g_markup_parse_context_parse (new_request "f") manifest_zero_size
  = Continue (mkRequest "f" 3 OSTREE_METALINK_STATE_INITIAL true true false
                G_CHECKSUM_MD5 0 None None None None []
                OSTREE_METALINK_STATE_PASSTHROUGH)
  /\ resolve "f" [manifest_zero_size] = TASK_ERROR NO_DIGEST
  /\ resolve "f" [manifest_without_size] = TASK_ERROR NO_DIGEST
  /\ (forall requested chunks,
        resolve requested chunks <> TASK_ERROR NO_KNOWN_HASH).
Proof.
  split; [reflexivity|]. split; [reflexivity|]. split; [reflexivity|].
  intros requested chunks.
  unfold resolve, _ostree_metalink_request_async. rewrite read_loop_chunks.
  pose proof (parse_unresolved (List.concat chunks) _
                (new_request_unresolved requested)) as Hu.
  pose proof (parse_no_known_hash_error (List.concat chunks) _
                (new_request_unresolved requested)) as Hn.
  destruct (g_markup_parse_context_parse (new_request requested) (List.concat chunks))
    as [self|self e|a]; simpl in *.
  - rewrite (unresolved_error self Hu). unfold error_without_digest.
    destruct (found_a_file_element self), (found_our_file_element self);
      simpl; intros H; inversion H.
  - intros H; inversion H; subst. apply Hn. reflexivity.
  - discriminate.
Qed.

(** *** Feeding the document in fragments *)

Section Fragments.

Variable parser_state : Type.
Variable scan_byte : parser_state -> ascii -> parser_state * list markup_event.



(** The loop over bytes is the loop over the callbacks made for them. *)
Lemma raw_loop_is_event_loop (reads : list (string + GError)) :
  forall ps self,
    on_metalink_bytes_read_raw scan_byte ps self reads
    = on_metalink_bytes_read self (segment scan_byte ps reads).
Proof.
  induction reads as [|r rest IH]; intros ps self; [reflexivity|].
  destruct r as [bytes|e]; [|reflexivity].
  cbn [on_metalink_bytes_read_raw segment].
  destruct (String.length bytes =? 0)%nat; [reflexivity|].
  destruct (scan scan_byte ps bytes) as [ps' events].
  cbn [on_metalink_bytes_read].
  destruct (g_markup_parse_context_parse self events); auto.
Qed.

End Fragments.

